(** * nzwirelessmap-fetch: the fetch pipeline of fetch.go

    A shallow embedding of [fetchInternal] and its helpers
    ([objectExists], [lastModifiedTime], [mdbToSqlite], [tempFile],
    [querySqliteToCSV], [csvToJSON], [writeToGCS], [findPrismMdb]).

    The program is one sequential run against three pieces of the
    outside world: the origin web server, the storage bucket and the
    local disk with its converter subprocesses.  The bucket and the
    disk are explicit state; every answer the outside world gives
    during one run (does a call fail, what does a subprocess print)
    is read from a [World] record; every effect of the run is
    appended to a log of [Event]s.  Go's [defer] is a stack of
    deferred calls that is unwound when [fetchInternal] returns. *)

From Stdlib Require Import String Ascii List Arith Lia DecimalString.
From stdpp Require Import gmap strings list.

Local Open Scope string_scope.
Local Open Scope nat_scope.
Local Open Scope list_scope.

(** ** Library models: package time, restricted to what fetch.go calls

    [lastModifiedTime] calls [time.Parse(http.TimeFormat, lm)] and
    [fetchInternal] renders the result with [t.Format(time.RFC3339)].
    The layout [http.TimeFormat] is "Mon, 02 Jan 2006 15:04:05 GMT":
    weekday name, two-digit day, month name, four-digit year, hour,
    two-digit minute, two-digit second, and the literal text " GMT". *)

Module GoTime.

Record Time := mkTime {
  year : nat; month : nat; day : nat;
  hour : nat; minute : nat; second : nat
}.

Definition isDigit (c : ascii) : bool :=
  (48 <=? nat_of_ascii c) && (nat_of_ascii c <=? 57).

Definition digitVal (c : ascii) : nat := nat_of_ascii c - 48.

(** [getnum(s, fixed)]: one or two leading digits; exactly two when
    [fixed]. *)
Definition getnum (s : string) (fixed : bool) : option (nat * string) :=
  match s with
  | String c0 rest =>
      if isDigit c0 then
        match rest with
        | String c1 rest' =>
            if isDigit c1 then Some (digitVal c0 * 10 + digitVal c1, rest')
            else if fixed then None else Some (digitVal c0, rest)
        | EmptyString => if fixed then None else Some (digitVal c0, rest)
        end
      else None
  | EmptyString => None
  end.

(** [match(s1, s2)] of package time compares byte by byte, ignoring the
    case of ASCII letters: unequal bytes are both or-ed with 0x20 and
    must then be the same lower-case letter. *)
Definition lowerBit (c : ascii) : nat := N.to_nat (N.lor (N_of_ascii c) 32).

Definition matchByte (c1 c2 : ascii) : bool :=
  if Ascii.eqb c1 c2 then true
  else (lowerBit c1 =? lowerBit c2) && (97 <=? lowerBit c1) && (lowerBit c1 <=? 122).

(** [val[0:len(v)]] matches [v]; the result is [val[len(v):]]. *)
Fixpoint matchPrefix (v val : string) : option string :=
  match v, val with
  | EmptyString, _ => Some val
  | String c2 v', String c1 val' =>
      if matchByte c1 c2 then matchPrefix v' val' else None
  | String _ _, EmptyString => None
  end.

(** [lookup(tab, val)]: index of the first table entry that is a
    prefix of [val] ignoring case. *)
Fixpoint lookupFrom (i : nat) (tab : list string) (val : string)
  : option (nat * string) :=
  match tab with
  | [] => None
  | v :: tab' =>
      match matchPrefix v val with
      | Some rest => Some (i, rest)
      | None => lookupFrom (S i) tab' val
      end
  end.

Definition shortDayNames : list string :=
  ["Sun"; "Mon"; "Tue"; "Wed"; "Thu"; "Fri"; "Sat"].

Definition shortMonthNames : list string :=
  ["Jan"; "Feb"; "Mar"; "Apr"; "May"; "Jun";
   "Jul"; "Aug"; "Sep"; "Oct"; "Nov"; "Dec"].

Definition isSpace (c : ascii) : bool := Ascii.eqb c " ".

Fixpoint cutspace (s : string) : string :=
  match s with
  | String c s' => if isSpace c then cutspace s' else s
  | EmptyString => s
  end.

(** [skip(value, prefix)]: the literal text between two layout
    elements.  A run of spaces in the layout matches a run of spaces
    (or the end) of the value; any other byte must be equal.  [insp]
    is set while inside a run of layout spaces, which Go removes with
    one [cutspace]. *)
Fixpoint skipGo (insp : bool) (prefix value : string) : option string :=
  match prefix with
  | EmptyString => Some value
  | String p prefix' =>
      if isSpace p then
        if insp then skipGo true prefix' value
        else
          match value with
          | String v _ =>
              if isSpace v then skipGo true prefix' (cutspace value) else None
          | EmptyString => skipGo true prefix' value
          end
      else
        match value with
        | String v value' =>
            if Ascii.eqb v p then skipGo false prefix' value' else None
        | EmptyString => None
        end
  end.

Definition skip (value prefix : string) : option string :=
  skipGo false prefix value.

(** stdLongYear: at least four bytes, all of them digits (the first is
    tested by [isDigit], the others by [atoi]). *)
Definition longYear (value : string) : option (nat * string) :=
  match value with
  | String a (String b (String c (String d rest))) =>
      if isDigit a && isDigit b && isDigit c && isDigit d then
        Some (digitVal a * 1000 + digitVal b * 100 + digitVal c * 10 + digitVal d,
              rest)
      else None
  | _ => None
  end.

Fixpoint dropDigits (s : string) : string :=
  match s with
  | String c s' => if isDigit c then dropDigits s' else s
  | EmptyString => s
  end.

Definition commaOrPeriod (c : ascii) : bool :=
  Ascii.eqb c "." || Ascii.eqb c ",".

(** After the seconds, a fractional second that the layout does not
    mention is read and consumed; RFC3339 output has no fraction, so
    its value is not kept. *)
Definition fracSecond (value : string) : string :=
  match value with
  | String c0 (String c1 rest) =>
      if commaOrPeriod c0 && isDigit c1 then dropDigits rest else value
  | _ => value
  end.

Definition isLeap (y : nat) : bool :=
  (y mod 4 =? 0) && (negb (y mod 100 =? 0) || (y mod 400 =? 0)).

Definition daysIn (m y : nat) : nat :=
  match m with
  | 2 => if isLeap y then 29 else 28
  | 4 | 6 | 9 | 11 => 30
  | _ => 31
  end.

Definition obind {A B} (o : option A) (k : A -> option B) : option B :=
  match o with Some a => k a | None => None end.

Notation "'let?' p ':=' o 'in' k" := (obind o (fun p => k))
  (at level 10, p pattern, o at level 200, k at level 200).

Definition guard (b : bool) : option unit := if b then Some tt else None.

(** [time.Parse(http.TimeFormat, value)]; [None] stands for a
    [*time.ParseError].  No zone element is in the layout, so the
    result is in UTC. *)
Definition ParseHTTP (value : string) : option Time :=
  let? (_, value) := lookupFrom 0 shortDayNames value in
  let? value := skip value ", " in
  let? (d, value) := getnum value true in
  let? value := skip value " " in
  let? (mi, value) := lookupFrom 0 shortMonthNames value in
  let? value := skip value " " in
  let? (y, value) := longYear value in
  let? value := skip value " " in
  let? (h, value) := getnum value false in
  let? _ := guard (h <? 24) in
  let? value := skip value ":" in
  let? (mn, value) := getnum value true in
  let? _ := guard (mn <? 60) in
  let? value := skip value ":" in
  let? (s, value) := getnum value true in
  let? _ := guard (s <? 60) in
  let? value := Some (fracSecond value) in
  let? value := skip value " GMT" in
  let? _ := guard (String.eqb value "") in
  let? _ := guard ((1 <=? d) && (d <=? daysIn (S mi) y)) in
  Some (mkTime y (S mi) d h mn s).

(** [appendInt(b, x, width)]: decimal, zero-padded to [width]. *)
Fixpoint zeros (n : nat) : string :=
  match n with 0 => "" | S n' => String "0" (zeros n') end.

Definition decimal (x : nat) : string := NilEmpty.string_of_uint (Nat.to_uint x).

Definition appendInt (x width : nat) : string :=
  let d := decimal x in zeros (width - String.length d) +:+ d.

(** [t.Format(time.RFC3339)] for a time in UTC: the layout is
    "2006-01-02T15:04:05Z07:00" and offset zero prints as "Z". *)
Definition FormatRFC3339 (t : Time) : string :=
  appendInt (year t) 4 +:+ "-" +:+ appendInt (month t) 2 +:+ "-" +:+
  appendInt (day t) 2 +:+ "T" +:+ appendInt (hour t) 2 +:+ ":" +:+
  appendInt (minute t) 2 +:+ ":" +:+ appendInt (second t) 2 +:+ "Z".

End GoTime.

(** ** Errors and formatting

    A Go [error] is observed through its text, so an error is the
    string [err.Error()] returns.  [fmt.Errorf] with [%v] of an error
    or of a string splices that text into the format. *)

Definition error := string.

Definition bytesOf (s : string) : list nat := map nat_of_ascii (list_ascii_of_string s).

(** [%v] of a [[]byte]: fmt prints a byte slice as the list of its
    elements in decimal, "[99 111 114]", not as text. *)
Definition fmtByteSlice (b : string) : string :=
  "[" +:+ String.concat " " (map GoTime.decimal (bytesOf b)) +:+ "]".

(** [strings.Contains(s, sub)]. *)
Fixpoint contains (sub s : string) : bool :=
  String.prefix sub s ||
  match s with
  | String _ s' => contains sub s'
  | EmptyString => false
  end.

(** [strings.IndexByte(s, c) >= 0]. *)
Fixpoint hasByte (c : ascii) (s : string) : bool :=
  match s with
  | EmptyString => false
  | String c' s' => Ascii.eqb c' c || hasByte c s'
  end.

(** ** The outside world *)

(** An [io.Reader] read to its end: the bytes it gave, and the error
    that ended the reading if it was not EOF. *)
Record Reader := mkReader { data : string; readErr : option error }.

Record Response := mkResponse {
  Header : gmap string (list string);
  Body : Reader
}.

(** [http.Header.Get]: the first value of the key, "" when there is
    none.  "Last-Modified" is already in canonical form. *)
Definition Header_Get (h : gmap string (list string)) (key : string) : string :=
  match h !! key with
  | Some (v :: _) => v
  | _ => ""
  end.

(** An entry of a [zip.Reader]: its name and what [f.Open()] gives. *)
Record ZipFile := mkZipFile {
  Name : string;
  Open : error + Reader
}.

(** A finished subprocess: the error of [cmd.Run] ([None] for exit
    status 0) and what it wrote to its two output streams. *)
Record Cmd := mkCmd {
  exitErr : option error;
  stdout : string;
  stderr : string
}.

(** [cmd.CombinedOutput] collects both streams in one buffer; how the
    two interleave is not modelled, standard output comes first. *)
Definition CombinedOutput (c : Cmd) : string := stdout c +:+ stderr c.

(** Everything the outside world answers during one run. *)
Record World := mkWorld {
  (** [storage.NewClient(ctx)] *)
  newClient : option error;
  (** [http.Get( *prismZipURL )] *)
  httpGet : error + Response;
  (** the text of the [*time.ParseError] for a header value, and
      [%q] of a string *)
  parseErrText : string -> string;
  quote : string -> string;
  (** [blob.Attrs(ctx)] failing with an error other than
      [storage.ErrObjectNotExist], by object name *)
  attrsErr : string -> option error;
  (** [io.Copy(w, f)] and [w.Close()] of a storage writer, by object name *)
  copyErr : string -> option error;
  closeErr : string -> option error;
  (** [zip.NewReader] on the archive bytes *)
  zipNewReader : string -> error + list ZipFile;
  (** [ioutil.TempFile(os.TempDir(), pattern)]: the path of the new file *)
  TempFile : string -> error + string;
  (** mdb-sqlite.jar on the bytes of its input file, and the bytes it
      leaves in its output file *)
  java : string -> Cmd;
  javaOut : string -> string;
  (** [sqlite3 db "analyze main;"] on the bytes of the database, and
      the database afterwards *)
  analyze : string -> Cmd;
  analyzeOut : string -> string;
  (** [os.Open("select_point_to_point_links.sql")] and sqlite3 fed with it *)
  openSql : option error;
  selectLinks : string -> Cmd;
  (** [python3 csv2json2.py] on its standard input *)
  csv2json : string -> Cmd
}.

(** The bucket and the local disk. *)
Record State := mkState {
  bucket : gmap string string;
  files : gmap string string;
  handles : gset string
}.

Inductive Event :=
| EvGet
| EvAttrs (name : string)
| EvReadBody
| EvCloseBody
| EvWrite (name content : string)
| EvWriteFailed (name : string)
| EvOpenEntry
| EvCloseEntry
| EvTempFile (path : string)
| EvCloseFile (path : string)
| EvRemove (path : string)
| EvExec (argv : list string).

(** A call registered with [defer]. *)
Inductive Deferred :=
| DCloseBody
| DCloseEntry
| DCloseFile (path : string)
| DRemove (path : string).

(** ** The monad of one run: state, deferred calls, log, and errors *)

Record Ctx := mkCtx {
  st : State;
  deferred : list Deferred;
  events : list Event
}.

Definition M (A : Type) : Type := Ctx -> (error + A) * Ctx.

Definition ret {A} (a : A) : M A := fun c => (inr a, c).

Definition fail {A} (e : error) : M A := fun c => (inl e, c).

Definition bind {A B} (m : M A) (k : A -> M B) : M B :=
  fun c =>
    match m c with
    | (inl e, c') => (inl e, c')
    | (inr a, c') => k a c'
    end.

Notation "x <- m ;; k" := (bind m (fun x => k))
  (at level 100, m at next level, right associativity).
Notation "m ;; k" := (bind m (fun _ => k))
  (at level 100, right associativity).

Definition emit (e : Event) : M unit :=
  fun c => (inr tt, mkCtx (st c) (deferred c) (events c ++ [e])).

Definition defer (d : Deferred) : M unit :=
  fun c => (inr tt, mkCtx (st c) (d :: deferred c) (events c)).

Definition getState : M State := fun c => (inr (st c), c).

Definition modify (f : State -> State) : M unit :=
  fun c => (inr tt, mkCtx (f (st c)) (deferred c) (events c)).

Definition putObject (name content : string) (s : State) : State :=
  mkState (<[name := content]> (bucket s)) (files s) (handles s).

Definition createFile (path : string) (s : State) : State :=
  mkState (bucket s) (<[path := ""]> (files s)) ({[path]} ∪ handles s).

Definition writeFile (path content : string) (s : State) : State :=
  mkState (bucket s) (<[path := content]> (files s)) (handles s).

Definition openFile (path : string) (s : State) : State :=
  mkState (bucket s) (files s) ({[path]} ∪ handles s).

Definition closeFile (path : string) (s : State) : State :=
  mkState (bucket s) (files s) (handles s ∖ {[path]}).

Definition removeFile (path : string) (s : State) : State :=
  mkState (bucket s) (delete path (files s)) (handles s).

Definition readFile (path : string) (s : State) : string :=
  default "" (files s !! path).

(** ** fetch.go *)

Section Fetch.

Variable w : World.

(** [objectExists(ctx, blob)] *)
Definition objectExists (name : string) : M bool :=
  emit (EvAttrs name) ;;
  match attrsErr w name with
  | Some e => fail ("couldn't get attrs on " +:+ name +:+ ": " +:+ e)
  | None =>
      s <- getState ;;
      match bucket s !! name with
      | Some _ => ret true
      | None => ret false
      end
  end.

(** [lastModifiedTime(resp)] *)
Definition lastModifiedTime (resp : Response) : error + GoTime.Time :=
  let lm := Header_Get (Header resp) "Last-Modified" in
  match GoTime.ParseHTTP lm with
  | Some lmt => inr lmt
  | None =>
      inl ("Couldn't parse Last-Modified header " +:+ quote w lm +:+ ": "
           +:+ parseErrText w lm)
  end.

(** [mdbToSqlite(mdbTmp, tmpSqlite)] *)
Definition mdbToSqlite (mdbTmp tmpSqlite : string) : M unit :=
  emit (EvExec ["/usr/bin/java"; "-jar"; "mdb-sqlite.jar"; mdbTmp; tmpSqlite]) ;;
  s <- getState ;;
  let mdb := readFile mdbTmp s in
  modify (writeFile tmpSqlite (javaOut w mdb)) ;;
  match exitErr (java w mdb) with
  | Some err =>
      fail ("couldn't read output from java: " +:+ err +:+ ", output: "
            +:+ fmtByteSlice (CombinedOutput (java w mdb)))
  | None =>
      emit (EvExec ["/usr/bin/sqlite3"; tmpSqlite; "analyze main;"]) ;;
      s <- getState ;;
      let db := readFile tmpSqlite s in
      modify (writeFile tmpSqlite (analyzeOut w db)) ;;
      match exitErr (analyze w db) with
      | Some err =>
          fail ("couldn't analyze db: " +:+ err +:+ ", output: "
                +:+ fmtByteSlice (CombinedOutput (analyze w db)))
      | None => ret tt
      end
  end.

(** [tempFile(pattern)]: the new file is open when it is returned. *)
Definition tempFile (pattern : string) : M string :=
  match TempFile w pattern with
  | inl err => fail ("couldn't create temp file: " +:+ err)
  | inr path =>
      modify (createFile path) ;;
      emit (EvTempFile path) ;;
      ret path
  end.

(** [querySqliteToCSV(tmpSqlite, tmpCsv)]; the result is what was
    written to [tmpCsv].  The handle on the query file is not closed. *)
Definition querySqliteToCSV (tmpSqlite : string) : M string :=
  match openSql w with
  | Some err => fail err
  | None =>
      modify (openFile "select_point_to_point_links.sql") ;;
      emit (EvExec ["/usr/bin/sqlite3"; tmpSqlite]) ;;
      s <- getState ;;
      let c := selectLinks w (readFile tmpSqlite s) in
      match exitErr c with
      | Some err =>
          fail ("couldn't select: " +:+ err +:+ ", stderr: " +:+ stderr c)
      | None => ret (stdout c)
      end
  end.

(** [csvToJSON(tmpCsv, tmpJSON)]; the result is what was written to
    [tmpJSON]. *)
Definition csvToJSON (tmpCsv : string) : M string :=
  emit (EvExec ["/usr/bin/python3"; "csv2json2.py"]) ;;
  let c := csv2json w tmpCsv in
  match exitErr c with
  | Some err =>
      fail ("couldn't convert to json: " +:+ err +:+ ", stderr: " +:+ stderr c)
  | None => ret (stdout c)
  end.

(** [writeToGCS(ctx, o, f)]: the object exists under its name once the
    writer is closed without error, and not before. *)
Definition writeToGCS (name content : string) : M unit :=
  match copyErr w name with
  | Some err =>
      emit (EvWriteFailed name) ;;
      fail ("error writing to cloud storage: " +:+ err)
  | None =>
      match closeErr w name with
      | Some err =>
          emit (EvWriteFailed name) ;;
          fail ("error closing cloud storage writer: " +:+ err)
      | None =>
          modify (putObject name content) ;;
          emit (EvWrite name content)
      end
  end.

(** [findPrismMdb(r)] over [r.File] *)
Fixpoint findPrismMdb (File : list ZipFile) : error + ZipFile :=
  match File with
  | [] => inl "no prism.mdb found in prism.zip"
  | f :: rest =>
      if String.eqb (Name f) "prism.mdb" then inr f else findPrismMdb rest
  end.

Definition liftE {A} (r : error + A) : M A :=
  match r with
  | inl e => fail e
  | inr a => ret a
  end.

(** [fmt.Errorf(prefix + "%v", err)] around a failing call. *)
Definition wrapE {A} (prefix : string) (r : error + A) : M A :=
  match r with
  | inl e => fail (prefix +:+ e)
  | inr a => ret a
  end.

(** The object names of one run. *)
Definition blobJSONLatest : string := "prism.json/latest".
Definition blobJSON (tSuffix : string) : string := "prism.json/" +:+ tSuffix.
Definition blobCSV (tSuffix : string) : string := "prism.csv/" +:+ tSuffix.
Definition blobZIP (tSuffix : string) : string := "prism.zip/" +:+ tSuffix.

(** The body of [fetchInternal], up to its [return]. *)
Definition fetchBody : M unit :=
  match newClient w with
  | Some err => fail ("Couldn't create storage client: " +:+ err)
  | None =>
  emit EvGet ;;
  resp <- liftE (httpGet w) ;;
  defer DCloseBody ;;
  t <- liftE (lastModifiedTime resp) ;;
  let tSuffix := GoTime.FormatRFC3339 t in
  exists_ <- objectExists (blobJSON tSuffix) ;;
  if exists_ : bool then ret tt else
  (* Read in the response body *)
  emit EvReadBody ;;
  match readErr (Body resp) with
  | Some err => fail err
  | None =>
  let zipTmp := data (Body resp) in
  (* Save the prism.zip to a timestamped file on GCS. *)
  writeToGCS (blobZIP tSuffix) zipTmp ;;
  (* Decode the prism.zip file *)
  zipR <- wrapE "error opening zip: " (zipNewReader w zipTmp) ;;
  (* Find prism.mdb inside the prism.zip file *)
  prismMDB <- wrapE "couldn't find prism.mdb: " (findPrismMdb zipR) ;;
  (* Read prism.mdb into a tmpfile. *)
  mdbR <- wrapE "couldn't open prism.mdb: " (Open prismMDB) ;;
  emit EvOpenEntry ;;
  defer DCloseEntry ;;
  mdbTmp <- tempFile "prism.mdb" ;;
  defer (DCloseFile mdbTmp) ;;
  defer (DRemove mdbTmp) ;;
  modify (writeFile mdbTmp (data mdbR)) ;;
  wrapE "couldn't read prism.mdb from zip: "
        (match readErr mdbR with Some e => inl e | None => inr tt end) ;;
  (* Make an output tmpfile for the sqlite3 database. *)
  tmpSqlite <- tempFile "prism.sqlite3" ;;
  defer (DCloseFile tmpSqlite) ;;
  defer (DRemove tmpSqlite) ;;
  (* Convert to sqlite3 *)
  mdbToSqlite mdbTmp tmpSqlite ;;
  (* Query sqlite to CSV *)
  tmpCSV <- querySqliteToCSV tmpSqlite ;;
  (* Save prism.csv to GCS *)
  writeToGCS (blobCSV tSuffix) tmpCSV ;;
  (* Convert CSV to JSON *)
  tmpJSON <- csvToJSON tmpCSV ;;
  (* Save JSON to GCS *)
  writeToGCS blobJSONLatest tmpJSON ;;
  (* Finally save to a timestamped JSON file. *)
  writeToGCS (blobJSON tSuffix) tmpJSON
  end
  end.

(** Running one deferred call. *)
Definition runDeferred (d : Deferred) (c : Ctx) : Ctx :=
  match d with
  | DCloseBody => mkCtx (st c) (deferred c) (events c ++ [EvCloseBody])
  | DCloseEntry => mkCtx (st c) (deferred c) (events c ++ [EvCloseEntry])
  | DCloseFile p =>
      mkCtx (closeFile p (st c)) (deferred c) (events c ++ [EvCloseFile p])
  | DRemove p =>
      mkCtx (removeFile p (st c)) (deferred c) (events c ++ [EvRemove p])
  end.

(** The deferred calls run last-registered first when the function
    returns, on every path. *)
Fixpoint unwind (ds : list Deferred) (c : Ctx) : Ctx :=
  match ds with
  | [] => mkCtx (st c) [] (events c)
  | d :: ds' => unwind ds' (runDeferred d c)
  end.

(** What one call of [fetchInternal] leaves behind. *)
Record Run := mkRun {
  result : option error;   (* the returned error; [None] is nil *)
  final : State;
  log : list Event
}.

(** [fetchInternal(r)] *)
Definition fetchInternal (s : State) : Run :=
  let '(r, c) := fetchBody (mkCtx s [] []) in
  let c' := unwind (deferred c) c in
  mkRun (match r with inl e => Some e | inr _ => None end) (st c') (events c').

End Fetch.

(** ** Reading a log *)

(** The names of the objects a run committed to the bucket, in order. *)
Fixpoint written (l : list Event) : list string :=
  match l with
  | [] => []
  | EvWrite n _ :: l' => n :: written l'
  | _ :: l' => written l'
  end.

(** The same with the content of each object. *)
Fixpoint committed (l : list Event) : list (string * string) :=
  match l with
  | [] => []
  | EvWrite n c :: l' => (n, c) :: committed l'
  | _ :: l' => committed l'
  end.

(** Every object name a run touched: existence checks and writes,
    committed or not. *)
Fixpoint touched (l : list Event) : list string :=
  match l with
  | [] => []
  | EvAttrs n :: l' => n :: touched l'
  | EvWrite n _ :: l' => n :: touched l'
  | EvWriteFailed n :: l' => n :: touched l'
  | _ :: l' => touched l'
  end.

(** The subprocesses a run started. *)
Fixpoint execs (l : list Event) : list (list string) :=
  match l with
  | [] => []
  | EvExec argv :: l' => argv :: execs l'
  | _ :: l' => execs l'
  end.

(** The staging files a run created. *)
Fixpoint acquired (l : list Event) : list string :=
  match l with
  | [] => []
  | EvTempFile p :: l' => p :: acquired l'
  | _ :: l' => acquired l'
  end.

Definition readsBody (l : list Event) : bool :=
  existsb (fun e => match e with EvReadBody => true | _ => false end) l.

(** [a] occurs in [l], and [b] occurs somewhere after its first
    occurrence. *)
Fixpoint precedes (a b : string) (l : list string) : bool :=
  match l with
  | [] => false
  | x :: l' => if String.eqb x a then existsb (String.eqb b) l' else precedes a b l'
  end.

(** Successive runs, each starting from the state the previous one left. *)
Fixpoint runs (ws : list World) (s : State) : list Run :=
  match ws with
  | [] => []
  | w :: ws' =>
      let r := fetchInternal w s in
      r :: runs ws' (final r)
  end.

(** The number of objects one run commits. *)
Definition recordsWritten (w : World) (s : State) : nat :=
  length (written (log (fetchInternal w s))).

(** ** Sample worlds *)

Module Sample.

Definition okCmd (out : string) : Cmd := mkCmd None out "".

Definition failCmd (err msg : string) : Cmd := mkCmd (Some err) "" msg.

Definition lastModified : string := "Tue, 01 Jan 2030 00:00:00 GMT".

Definition tSuffix : string := "2030-01-01T00:00:00Z".

Definition resp : Response :=
  mkResponse {[ "Last-Modified" := [lastModified] ]} (mkReader "PK-archive" None).

Definition entry (name : string) : ZipFile :=
  mkZipFile name (inr (mkReader "mdb-bytes" None)).

(** A world in which every call succeeds, except as the four
    arguments say. *)
Definition world (r : Response) (File : list ZipFile) (javaCmd : Cmd)
    (closeE : string -> option error) : World :=
  {| newClient := None;
     httpGet := inr r;
     parseErrText := fun _ => "cannot parse";
     quote := fun v => v;
     attrsErr := fun _ => None;
     copyErr := fun _ => None;
     closeErr := closeE;
     zipNewReader := fun _ => inr File;
     TempFile := fun pattern => inr ("/tmp/" +:+ pattern +:+ "042");
     java := fun _ => javaCmd;
     javaOut := fun _ => "sqlite-bytes";
     analyze := fun _ => okCmd "";
     analyzeOut := fun db => db;
     openSql := None;
     selectLinks := fun _ => okCmd "a,b";
     csv2json := fun _ => okCmd "[]" |}.

Definition happy : World :=
  world resp [entry "readme.txt"; entry "prism.mdb"] (okCmd "") (fun _ => None).

Definition emptyState : State := mkState ∅ ∅ ∅.

End Sample.

(** ** The trigger endpoint *)

(** What the handler writes to its [http.ResponseWriter]: the status
    (200 when [WriteHeader] is not called) and the body. *)
Record Reply := mkReply { status : nat; reply : string }.

(** [fetch(w, r)], the handler of "/fetch". *)
Definition fetch (w : World) (s : State) : Reply * Run :=
  let r := fetchInternal w s in
  match result r with
  | Some err => (mkReply 500 ("/fetch failed: " +:+ err), r)
  | None => (mkReply 200 "OK", r)
  end.

(** ** The earlier revision of the pipeline

    The revision of [fetchInternal] that precedes the dedup check
    (the third program text of fetch.go): the body is read as soon as
    the timestamp is known, no object is looked up, and the
    timestamped JSON object is committed before the alias.  Its
    helpers are the ones above. *)

Module Earlier.

Section Fetch.

Variable w : World.

Definition fetchBody : M unit :=
  match newClient w with
  | Some err => fail ("Couldn't create storage client: " +:+ err)
  | None =>
  emit EvGet ;;
  resp <- liftE (httpGet w) ;;
  defer DCloseBody ;;
  lmt <- liftE (lastModifiedTime w resp) ;;
  emit EvReadBody ;;
  match readErr (Body resp) with
  | Some err => fail err
  | None =>
  let zipTmp := data (Body resp) in
  let t := lmt in
  writeToGCS w ("prism.zip/" +:+ GoTime.FormatRFC3339 t) zipTmp ;;
  zipR <- wrapE "error opening zip: " (zipNewReader w zipTmp) ;;
  prismMDB <- wrapE "couldn't find prism.mdb: " (findPrismMdb zipR) ;;
  mdbR <- wrapE "couldn't open prism.mdb: " (Open prismMDB) ;;
  emit EvOpenEntry ;;
  defer DCloseEntry ;;
  mdbTmp <- tempFile w "prism.mdb" ;;
  defer (DCloseFile mdbTmp) ;;
  defer (DRemove mdbTmp) ;;
  modify (writeFile mdbTmp (data mdbR)) ;;
  wrapE "couldn't read prism.mdb from zip: "
        (match readErr mdbR with Some e => inl e | None => inr tt end) ;;
  (* Make an output tmpfile *)
  tmpSqlite <- tempFile w "prism.sqlite3" ;;
  defer (DCloseFile tmpSqlite) ;;
  defer (DRemove tmpSqlite) ;;
  (* Convert to sqlite3 *)
  mdbToSqlite w mdbTmp tmpSqlite ;;
  tmpCSV <- querySqliteToCSV w tmpSqlite ;;
  (* Save CSV to GCS *)
  writeToGCS w ("prism.csv/" +:+ GoTime.FormatRFC3339 t) tmpCSV ;;
  (* Convert CSV to JSON *)
  tmpJSON <- csvToJSON w tmpCSV ;;
  (* Save JSON to GCS *)
  writeToGCS w ("prism.json/" +:+ GoTime.FormatRFC3339 t) tmpJSON ;;
  writeToGCS w "prism.json/latest" tmpJSON
  end
  end.

Definition fetchInternal (s : State) : Run :=
  let '(r, c) := fetchBody (mkCtx s [] []) in
  let c' := unwind (deferred c) c in
  mkRun (match r with inl e => Some e | inr _ => None end) (st c') (events c').

End Fetch.

End Earlier.

(** ** More sample worlds *)

Module Scenario.

(** [w], but with [blob.Attrs] failing as [f] says. *)
Definition withAttrsErr (w : World) (f : string -> option error) : World :=
  {| newClient := newClient w;
     httpGet := httpGet w;
     parseErrText := parseErrText w;
     quote := quote w;
     attrsErr := f;
     copyErr := copyErr w;
     closeErr := closeErr w;
     zipNewReader := zipNewReader w;
     TempFile := TempFile w;
     java := java w;
     javaOut := javaOut w;
     analyze := analyze w;
     analyzeOut := analyzeOut w;
     openSql := openSql w;
     selectLinks := selectLinks w;
     csv2json := csv2json w |}.

(** The bucket after a complete run for an older version, and a disk
    with a file of another program. *)
Definition older : State :=
  mkState {[ "prism.json/2029-06-01T00:00:00Z" := "[9]";
             "prism.json/latest" := "[9]" ]}
          {[ "/tmp/other" := "kept" ]} ∅.

(** The sample header in another spelling: lower case, one-digit hour. *)
Definition respLower : Response :=
  mkResponse {[ "Last-Modified" := ["tue, 01 jan 2030 0:00:00 GMT"] ]}
             (mkReader "PK-archive" None).

End Scenario.

(** ** Reading an RFC3339 suffix back *)

(** The value of a run of decimal digits, [None] when a byte is not a
    digit. *)
Fixpoint digitsValue (acc : nat) (s : string) : option nat :=
  match s with
  | EmptyString => Some acc
  | String c s' =>
      if GoTime.isDigit c then digitsValue (acc * 10 + GoTime.digitVal c) s'
      else None
  end.

(** The fields of "YYYY-MM-DDTHH:MM:SSZ", by position. *)
Definition readRFC3339 (s : string) : option GoTime.Time :=
  match digitsValue 0 (substring 0 4 s), digitsValue 0 (substring 5 2 s),
        digitsValue 0 (substring 8 2 s), digitsValue 0 (substring 11 2 s),
        digitsValue 0 (substring 14 2 s), digitsValue 0 (substring 17 2 s) with
  | Some y, Some mo, Some d, Some h, Some mi, Some sec =>
      Some (GoTime.mkTime y mo d h mi sec)
  | _, _, _, _, _, _ => None
  end.

(** [appendInt x width] has [width] bytes and reads back as [x]. *)
Definition readsBack (width x : nat) : bool :=
  (String.length (GoTime.appendInt x width) =? width) &&
  match digitsValue 0 (GoTime.appendInt x width) with
  | Some v => v =? x
  | None => false
  end.

(** The ranges [time.Parse] leaves the fields of a time in. *)
Definition inRange (t : GoTime.Time) : Prop :=
  GoTime.year t < 100 * 100 /\ 1 <= GoTime.month t <= 12 /\
  1 <= GoTime.day t <= 31 /\ GoTime.hour t < 24 /\
  GoTime.minute t < 60 /\ GoTime.second t < 60.

(** ** Proof tools *)

(** Unfold the run down to the answers of the world. *)
Ltac exec :=
  cbv beta iota zeta delta
    [fetchInternal fetchBody bind ret fail emit defer getState modify liftE wrapE
     objectExists writeToGCS tempFile mdbToSqlite querySqliteToCSV csvToJSON
     unwind runDeferred st deferred events result final log app].

(** Case analysis on the next answer the run depends on. *)
Ltac next_answer :=
  match goal with
  | |- context [match ?x with _ => _ end] =>
      lazymatch x with
      | context [match _ with _ => _ end] => fail
      | _ => destruct x eqn:?
      end
  end.

Ltac all_paths := repeat (next_answer; exec).

(** Two answers to one question are the same answer. *)
Ltac same_answer :=
  repeat match goal with
         | H : exists _, _ |- _ => destruct H
         | H1 : ?x = inr ?a, H2 : ?x = inr ?b |- _ =>
             lazymatch a with
             | b => fail
             | _ => rewrite H1 in H2; injection H2 as <-
             end
         | H1 : ?x = inr _, H2 : ?x = inl _ |- _ =>
             rewrite H1 in H2; discriminate H2
         end.

Ltac in_list := repeat (first [left; reflexivity | right]).

Ltac leaf :=
  unfold recordsWritten; exec;
  cbn [written length firstn];
  repeat split; intros; simplify_eq; same_answer;
  try lia; try discriminate; try reflexivity; auto; try (cbn [In]; in_list).

(** Unfold the operations on the bucket and the disk. *)
Ltac disk :=
  cbv beta iota delta [closeFile removeFile openFile writeFile createFile putObject
                       files handles bucket].

(** ** The models on concrete inputs *)

Example parse_2030 :
  GoTime.ParseHTTP "Tue, 01 Jan 2030 00:00:00 GMT"
  = Some (GoTime.mkTime 2030 1 1 0 0 0).
Proof. reflexivity. Qed.

Example format_2030 :
  GoTime.FormatRFC3339 (GoTime.mkTime 2030 1 1 0 0 0) = "2030-01-01T00:00:00Z".
Proof. reflexivity. Qed.

Example parse_empty : GoTime.ParseHTTP "" = None.
Proof. reflexivity. Qed.

Example parse_feb30 : GoTime.ParseHTTP "Sat, 30 Feb 2030 00:00:00 GMT" = None.
Proof. reflexivity. Qed.

Example parse_lower : GoTime.ParseHTTP "tue, 01 jan 2030 7:05:09.25 GMT"
  = Some (GoTime.mkTime 2030 1 1 7 5 9).
Proof. reflexivity. Qed.

Example happy_run_log :
  log (fetchInternal Sample.happy Sample.emptyState) =
  [EvGet; EvAttrs "prism.json/2030-01-01T00:00:00Z"; EvReadBody;
   EvWrite "prism.zip/2030-01-01T00:00:00Z" "PK-archive"; EvOpenEntry;
   EvTempFile "/tmp/prism.mdb042"; EvTempFile "/tmp/prism.sqlite3042";
   EvExec ["/usr/bin/java"; "-jar"; "mdb-sqlite.jar"; "/tmp/prism.mdb042";
           "/tmp/prism.sqlite3042"];
   EvExec ["/usr/bin/sqlite3"; "/tmp/prism.sqlite3042"; "analyze main;"];
   EvExec ["/usr/bin/sqlite3"; "/tmp/prism.sqlite3042"];
   EvWrite "prism.csv/2030-01-01T00:00:00Z" "a,b";
   EvExec ["/usr/bin/python3"; "csv2json2.py"];
   EvWrite "prism.json/latest" "[]";
   EvWrite "prism.json/2030-01-01T00:00:00Z" "[]";
   EvRemove "/tmp/prism.sqlite3042"; EvCloseFile "/tmp/prism.sqlite3042";
   EvRemove "/tmp/prism.mdb042"; EvCloseFile "/tmp/prism.mdb042";
   EvCloseEntry; EvCloseBody].
Proof. vm_compute. reflexivity. Qed.

(** ** The database entry of the archive *)

Lemma findPrismMdb_not_found (File : list ZipFile) :
  Forall (fun f => Name f <> "prism.mdb") File ->
  findPrismMdb File = inl "no prism.mdb found in prism.zip".
Proof.
  induction 1 as [|f File Hf _ IH]; simpl.
  - reflexivity.
  - destruct (String.eqb_spec (Name f) "prism.mdb") as [E|_]; [contradiction|exact IH].
Qed.

Lemma findPrismMdb_first (File : list ZipFile) (f : ZipFile) :
  findPrismMdb File = inr f <->
  exists before after,
    File = before ++ f :: after /\
    Name f = "prism.mdb" /\
    Forall (fun g => Name g <> "prism.mdb") before.
Proof.
  split.
  - induction File as [|g File IH]; simpl; [discriminate|].
    destruct (String.eqb_spec (Name g) "prism.mdb") as [E|NE].
    + intros [= ->]. exists [], File. repeat split; auto.
    + intros H. destruct (IH H) as (before & after & -> & Hn & Hb).
      exists (g :: before), after. repeat split; auto.
  - intros (before & after & -> & Hn & Hb).
    induction Hb as [|g before Hg _ IH]; simpl.
    + rewrite Hn. reflexivity.
    + destruct (String.eqb_spec (Name g) "prism.mdb"); [contradiction|exact IH].
Qed.

(** C10: [findPrismMdb] returns the first entry whose whole name is
    exactly "prism.mdb": the entries before it have other names, and
    when no entry has that name the result is the not-found error.
    The comparison is on the full name and on bytes, so an archive
    whose only entries are "PRISM.MDB" and "data/prism.mdb" gives the
    not-found error. *)
Theorem C10_findPrismMdb_exact_name :
  (forall File f,
      findPrismMdb File = inr f <->
      exists before after,
        File = before ++ f :: after /\
        Name f = "prism.mdb" /\
        Forall (fun g => Name g <> "prism.mdb") before) /\
  (forall File,
      Forall (fun f => Name f <> "prism.mdb") File ->
      findPrismMdb File = inl "no prism.mdb found in prism.zip") /\
  findPrismMdb [Sample.entry "PRISM.MDB"; Sample.entry "data/prism.mdb"]
  = inl "no prism.mdb found in prism.zip".
Proof.
  split; [exact findPrismMdb_first|].
  split; [exact findPrismMdb_not_found|].
  reflexivity.
Qed.

(** ** The short-circuit at the dedup check *)

(** C1: when the run gets as far as the dedup check (the client is
    created, the fetch answers, the Last-Modified header parses, the
    attribute query itself does not fail) and the bucket already holds
    prism.json/<timestamp> for the fetched archive, [fetchInternal]
    returns nil, leaves the bucket and the disk as they were, starts no
    subprocess, does not read the body, and commits no object: the
    only access to the bucket is the one existence check. *)
Theorem C1_dedup_short_circuit (w : World) (s : State) (resp : Response)
    (t : GoTime.Time) (v : string) :
  newClient w = None ->
  httpGet w = inr resp ->
  lastModifiedTime w resp = inr t ->
  attrsErr w (blobJSON (GoTime.FormatRFC3339 t)) = None ->
  bucket s !! blobJSON (GoTime.FormatRFC3339 t) = Some v ->
  result (fetchInternal w s) = None /\
  final (fetchInternal w s) = s /\
  log (fetchInternal w s) =
    [EvGet; EvAttrs (blobJSON (GoTime.FormatRFC3339 t)); EvCloseBody] /\
  execs (log (fetchInternal w s)) = [] /\
  written (log (fetchInternal w s)) = [] /\
  touched (log (fetchInternal w s)) = [blobJSON (GoTime.FormatRFC3339 t)] /\
  readsBody (log (fetchInternal w s)) = false.
Proof.
  intros Hc Hg Ht Ha Hb.
  exec. rewrite Hc, Hg. exec. rewrite Ht. exec. rewrite Ha. exec. rewrite Hb. exec.
  repeat split; reflexivity.
Qed.

Lemma C1_dedup_short_circuit_witness :
  result (fetchInternal Sample.happy
            (mkState {[ "prism.json/2030-01-01T00:00:00Z" := "[]" ]} ∅ ∅)) = None /\
  written (log (fetchInternal Sample.happy
            (mkState {[ "prism.json/2030-01-01T00:00:00Z" := "[]" ]} ∅ ∅))) = [].
Proof.
  pose proof (C1_dedup_short_circuit Sample.happy
                (mkState {[ "prism.json/2030-01-01T00:00:00Z" := "[]" ]} ∅ ∅)
                Sample.resp (GoTime.mkTime 2030 1 1 0 0 0) "[]"
                eq_refl eq_refl eq_refl eq_refl eq_refl) as H.
  split; [exact (proj1 H)|exact (proj1 (proj2 (proj2 (proj2 (proj2 H)))))].
Defined.

(** ** The timestamp of the archive *)

Lemma Header_Get_absent (h : gmap string (list string)) (key : string) :
  h !! key = None -> Header_Get h key = "".
Proof. unfold Header_Get. intros ->. reflexivity. Qed.

Lemma ParseHTTP_empty : GoTime.ParseHTTP "" = None.
Proof. reflexivity. Qed.

Lemma lastModifiedTime_unparseable (w : World) (resp : Response) :
  GoTime.ParseHTTP (Header_Get (Header resp) "Last-Modified") = None ->
  lastModifiedTime w resp =
    inl ("Couldn't parse Last-Modified header "
         +:+ quote w (Header_Get (Header resp) "Last-Modified") +:+ ": "
         +:+ parseErrText w (Header_Get (Header resp) "Last-Modified")).
Proof. unfold lastModifiedTime. intros ->. reflexivity. Qed.

(** C7: when the origin answers and its Last-Modified header is
    absent, empty, or not in the HTTP time format, [fetchInternal]
    returns the "Couldn't parse Last-Modified header" error of
    [lastModifiedTime].  The run has then only fetched the response
    and closed its body: the body is not read, the bucket is neither
    queried nor written, and the bucket and the disk are unchanged. *)
Theorem C7_timestamp_error_before_body (w : World) (s : State) (resp : Response) :
  newClient w = None ->
  httpGet w = inr resp ->
  (Header resp !! "Last-Modified" = None \/
   Header_Get (Header resp) "Last-Modified" = "" \/
   GoTime.ParseHTTP (Header_Get (Header resp) "Last-Modified") = None) ->
  result (fetchInternal w s) =
    Some ("Couldn't parse Last-Modified header "
          +:+ quote w (Header_Get (Header resp) "Last-Modified") +:+ ": "
          +:+ parseErrText w (Header_Get (Header resp) "Last-Modified")) /\
  log (fetchInternal w s) = [EvGet; EvCloseBody] /\
  readsBody (log (fetchInternal w s)) = false /\
  touched (log (fetchInternal w s)) = [] /\
  written (log (fetchInternal w s)) = [] /\
  final (fetchInternal w s) = s.
Proof.
  intros Hc Hg Hlm.
  assert (GoTime.ParseHTTP (Header_Get (Header resp) "Last-Modified") = None) as Hp.
  { destruct Hlm as [Habs|[Hempty|Hbad]].
    - rewrite (Header_Get_absent _ _ Habs). exact ParseHTTP_empty.
    - rewrite Hempty. exact ParseHTTP_empty.
    - exact Hbad. }
  exec. rewrite Hc, Hg. exec.
  rewrite (lastModifiedTime_unparseable w resp Hp). exec.
  repeat split; reflexivity.
Qed.

Lemma C7_timestamp_error_before_body_witness :
  result (fetchInternal
            (Sample.world (mkResponse {[ "Last-Modified" := [""] ]} (mkReader "PK" None))
               [Sample.entry "prism.mdb"] (Sample.okCmd "") (fun _ => None))
            Sample.emptyState)
  = Some "Couldn't parse Last-Modified header : cannot parse" /\
  readsBody (log (fetchInternal
            (Sample.world (mkResponse {[ "Last-Modified" := [""] ]} (mkReader "PK" None))
               [Sample.entry "prism.mdb"] (Sample.okCmd "") (fun _ => None))
            Sample.emptyState)) = false.
Proof.
  pose proof (C7_timestamp_error_before_body
                (Sample.world (mkResponse {[ "Last-Modified" := [""] ]} (mkReader "PK" None))
                   [Sample.entry "prism.mdb"] (Sample.okCmd "") (fun _ => None))
                Sample.emptyState
                (mkResponse {[ "Last-Modified" := [""] ]} (mkReader "PK" None))
                eq_refl eq_refl (or_intror (or_introl eq_refl))) as H.
  split; [exact (proj1 H)|exact (proj1 (proj2 (proj2 H)))].
Defined.

(** ** The archive without a database entry *)

(** C5: when the run gets as far as the lookup in the archive (the
    dedup check finds no prism.json/<timestamp>, the body is read, the
    raw archive is committed as prism.zip/<timestamp>, the bytes open
    as a zip archive) and no entry of the archive is named
    "prism.mdb", [fetchInternal] returns the not-found error of
    [findPrismMdb], wrapped, and the one object committed in that run
    is the raw archive: nothing is written under prism.csv or
    prism.json, no staging file is created and no subprocess runs. *)
Theorem C5_missing_entry_not_found (w : World) (s : State) (resp : Response)
    (t : GoTime.Time) (File : list ZipFile) :
  newClient w = None ->
  httpGet w = inr resp ->
  lastModifiedTime w resp = inr t ->
  attrsErr w (blobJSON (GoTime.FormatRFC3339 t)) = None ->
  bucket s !! blobJSON (GoTime.FormatRFC3339 t) = None ->
  readErr (Body resp) = None ->
  copyErr w (blobZIP (GoTime.FormatRFC3339 t)) = None ->
  closeErr w (blobZIP (GoTime.FormatRFC3339 t)) = None ->
  zipNewReader w (data (Body resp)) = inr File ->
  Forall (fun f => Name f <> "prism.mdb") File ->
  result (fetchInternal w s) =
    Some "couldn't find prism.mdb: no prism.mdb found in prism.zip" /\
  written (log (fetchInternal w s)) = [blobZIP (GoTime.FormatRFC3339 t)] /\
  bucket (final (fetchInternal w s)) =
    <[blobZIP (GoTime.FormatRFC3339 t) := data (Body resp)]> (bucket s) /\
  acquired (log (fetchInternal w s)) = [] /\
  execs (log (fetchInternal w s)) = [].
Proof.
  intros Hc Hg Ht Ha Hb Hr Hcp Hcl Hz Hnone.
  exec. rewrite Hc, Hg. exec. rewrite Ht. exec. rewrite Ha. exec. rewrite Hb. exec.
  rewrite Hr. exec. rewrite Hcp, Hcl. exec. rewrite Hz. exec.
  rewrite (findPrismMdb_not_found File Hnone). exec.
  repeat split; reflexivity.
Qed.

Lemma C5_missing_entry_not_found_witness :
  result (fetchInternal
            (Sample.world Sample.resp
               [Sample.entry "PRISM.MDB"; Sample.entry "data/prism.mdb"]
               (Sample.okCmd "") (fun _ => None))
            Sample.emptyState)
  = Some "couldn't find prism.mdb: no prism.mdb found in prism.zip" /\
  written (log (fetchInternal
            (Sample.world Sample.resp
               [Sample.entry "PRISM.MDB"; Sample.entry "data/prism.mdb"]
               (Sample.okCmd "") (fun _ => None))
            Sample.emptyState))
  = ["prism.zip/2030-01-01T00:00:00Z"].
Proof.
  assert (Forall (fun f => Name f <> "prism.mdb")
            [Sample.entry "PRISM.MDB"; Sample.entry "data/prism.mdb"]) as Hnone.
  { repeat constructor; simpl; discriminate. }
  pose proof (C5_missing_entry_not_found
                (Sample.world Sample.resp
                   [Sample.entry "PRISM.MDB"; Sample.entry "data/prism.mdb"]
                   (Sample.okCmd "") (fun _ => None))
                Sample.emptyState Sample.resp (GoTime.mkTime 2030 1 1 0 0 0)
                [Sample.entry "PRISM.MDB"; Sample.entry "data/prism.mdb"]
                eq_refl eq_refl eq_refl eq_refl eq_refl eq_refl eq_refl eq_refl
                eq_refl Hnone) as H.
  split; [exact (proj1 H)|exact (proj1 (proj2 H))].
Defined.

(** ** The order and the number of the writes *)

(** A complete run: the alias is committed before the timestamped
    name, not after it. *)
Lemma C2_counterexample :
  result (fetchInternal Sample.happy Sample.emptyState) = None /\
  written (log (fetchInternal Sample.happy Sample.emptyState)) =
    ["prism.zip/2030-01-01T00:00:00Z"; "prism.csv/2030-01-01T00:00:00Z";
     "prism.json/latest"; "prism.json/2030-01-01T00:00:00Z"] /\
  precedes "prism.json/2030-01-01T00:00:00Z" "prism.json/latest"
    (written (log (fetchInternal Sample.happy Sample.emptyState))) = false.
Proof. vm_compute. repeat split; reflexivity. Qed.

(** C2 (as amended): in every run that passes the dedup check and
    returns nil, the committed objects are, in this order, the raw
    archive prism.zip/<timestamp>, the tabular extract
    prism.csv/<timestamp>, the alias prism.json/latest, and last the
    timestamped prism.json/<timestamp>, which is the key the dedup
    check of later runs reads; the two JSON objects have the same
    content. *)
Theorem C2_write_order_timestamp_last (w : World) (s : State) (resp : Response)
    (t : GoTime.Time) :
  httpGet w = inr resp ->
  lastModifiedTime w resp = inr t ->
  bucket s !! blobJSON (GoTime.FormatRFC3339 t) = None ->
  result (fetchInternal w s) = None ->
  written (log (fetchInternal w s)) =
    [blobZIP (GoTime.FormatRFC3339 t); blobCSV (GoTime.FormatRFC3339 t);
     blobJSONLatest; blobJSON (GoTime.FormatRFC3339 t)] /\
  exists csv json,
    committed (log (fetchInternal w s)) =
    [(blobZIP (GoTime.FormatRFC3339 t), data (Body resp));
     (blobCSV (GoTime.FormatRFC3339 t), csv);
     (blobJSONLatest, json);
     (blobJSON (GoTime.FormatRFC3339 t), json)].
Proof.
  intros Hg Ht Hb. exec.
  destruct (newClient w); exec; [discriminate|].
  rewrite Hg. exec. rewrite Ht. exec.
  destruct (attrsErr w _); exec; [discriminate|].
  rewrite Hb. exec.
  all_paths; try discriminate.
  intros _. split; [reflexivity|].
  eexists _, _. reflexivity.
Qed.

Lemma C2_write_order_timestamp_last_witness :
  written (log (fetchInternal Sample.happy Sample.emptyState)) =
    [blobZIP Sample.tSuffix; blobCSV Sample.tSuffix;
     blobJSONLatest; blobJSON Sample.tSuffix].
Proof.
  exact (proj1 (C2_write_order_timestamp_last Sample.happy Sample.emptyState
                  Sample.resp (GoTime.mkTime 2030 1 1 0 0 0)
                  eq_refl eq_refl eq_refl eq_refl)).
Defined.

(** The last write of a complete run fails: three objects are committed. *)
Lemma C3_counterexample :
  result (fetchInternal
            (Sample.world Sample.resp [Sample.entry "prism.mdb"] (Sample.okCmd "")
               (fun name =>
                  if String.eqb name "prism.json/2030-01-01T00:00:00Z"
                  then Some "backend unavailable" else None))
            Sample.emptyState)
  = Some "error closing cloud storage writer: backend unavailable" /\
  written (log (fetchInternal
            (Sample.world Sample.resp [Sample.entry "prism.mdb"] (Sample.okCmd "")
               (fun name =>
                  if String.eqb name "prism.json/2030-01-01T00:00:00Z"
                  then Some "backend unavailable" else None))
            Sample.emptyState))
  = ["prism.zip/2030-01-01T00:00:00Z"; "prism.csv/2030-01-01T00:00:00Z";
     "prism.json/latest"] /\
  recordsWritten
    (Sample.world Sample.resp [Sample.entry "prism.mdb"] (Sample.okCmd "")
       (fun name =>
          if String.eqb name "prism.json/2030-01-01T00:00:00Z"
          then Some "backend unavailable" else None))
    Sample.emptyState = 3.
Proof. vm_compute. repeat split; reflexivity. Qed.

(** C3 (as amended): one run commits 0, 1, 2, 3 or 4 objects, and
    they are always the first so many of the raw archive, the tabular
    extract, the latest alias and the timestamped structured output,
    in that order.  A run that returns nil commits none (the
    short-circuit) or all four; a run that commits four returns nil;
    a run commits exactly three when the last write, the one of
    prism.json/<timestamp>, fails after the latest alias was
    committed. *)
Theorem C3_record_count (w : World) (s : State) :
  recordsWritten w s <= 4 /\
  (result (fetchInternal w s) = None ->
   recordsWritten w s = 0 \/ recordsWritten w s = 4) /\
  (recordsWritten w s = 4 -> result (fetchInternal w s) = None) /\
  (forall resp t,
     httpGet w = inr resp ->
     lastModifiedTime w resp = inr t ->
     written (log (fetchInternal w s)) =
       firstn (recordsWritten w s)
         [blobZIP (GoTime.FormatRFC3339 t); blobCSV (GoTime.FormatRFC3339 t);
          blobJSONLatest; blobJSON (GoTime.FormatRFC3339 t)] /\
     (recordsWritten w s = 3 ->
      result (fetchInternal w s) <> None /\
      In (EvWriteFailed (blobJSON (GoTime.FormatRFC3339 t)))
         (log (fetchInternal w s)))) /\
  (forall resp,
     httpGet w = inr resp ->
     (exists e, lastModifiedTime w resp = inl e) ->
     recordsWritten w s = 0).
Proof.
  unfold recordsWritten. exec.
  destruct (newClient w) eqn:Hc; [leaf|].
  destruct (httpGet w) as [e|resp] eqn:Hg; [leaf|].
  destruct (lastModifiedTime w resp) as [e|t] eqn:Ht; [leaf|].
  exec. all_paths; leaf.
Qed.

(** ** Staging files *)

Lemma removed_twice (m : gmap string string) (a b p : string) :
  p = a \/ p = b -> delete a (delete b m) !! p = None.
Proof.
  intros [->| ->].
  - apply lookup_delete_eq.
  - apply lookup_delete_None. right. apply lookup_delete_eq.
Qed.

Lemma closed_once (h : gset string) (p : string) : p ∉ h ∖ {[p]}.
Proof. rewrite elem_of_difference, elem_of_singleton. tauto. Qed.

Lemma closed_twice (h : gset string) (a b p : string) :
  p = a \/ p = b -> p ∉ h ∖ {[b]} ∖ {[a]}.
Proof.
  intros Hp. rewrite !elem_of_difference, !elem_of_singleton.
  destruct Hp; tauto.
Qed.

(** C8: on every path through [fetchInternal], every staging file the
    run created with [tempFile] has been removed from the disk and its
    handle closed when the function has returned: the deferred
    [os.Remove] and [Close] of each file are in the log of the run,
    the path is no longer on the disk and no handle on it is open. *)
Theorem C8_staging_files_released (w : World) (s : State) (p : string) :
  In p (acquired (log (fetchInternal w s))) ->
  files (final (fetchInternal w s)) !! p = None /\
  (p ∉ handles (final (fetchInternal w s))) /\
  In (EvRemove p) (log (fetchInternal w s)) /\
  In (EvCloseFile p) (log (fetchInternal w s)).
Proof.
  exec. all_paths; cbn [acquired In]; intros Hp; try contradiction.
  all: disk.
  all: destruct Hp as [<-|Hp]; [|try destruct Hp as [<-|[]]; try contradiction].
  all: repeat apply conj.
  all: try (cbn [In]; in_list; fail).
  all: try (apply lookup_delete_eq).
  all: try (apply removed_twice; auto; fail).
  all: try apply closed_once.
  all: apply closed_twice; auto.
Qed.

Lemma C8_staging_files_released_witness :
  files (final (fetchInternal Sample.happy Sample.emptyState)) !! "/tmp/prism.mdb042"
  = None /\
  ("/tmp/prism.mdb042" ∉ handles (final (fetchInternal Sample.happy Sample.emptyState))).
Proof.
  assert (In "/tmp/prism.mdb042"
            (acquired (log (fetchInternal Sample.happy Sample.emptyState)))) as Hin.
  { vm_compute. left. reflexivity. }
  pose proof (C8_staging_files_released Sample.happy Sample.emptyState
                "/tmp/prism.mdb042" Hin) as H.
  split; [exact (proj1 H)|exact (proj1 (proj2 H))].
Defined.

(** ** Object names *)

(** C9: the object names a run uses are "prism.zip/", "prism.csv/"
    and "prism.json/" followed by the RFC3339 rendering of the parsed
    Last-Modified time, and the fixed name "prism.json/latest": every
    name the run queries or writes is one of these four, and a run
    that passes the dedup check and returns nil uses all of them.
    The header value "Tue, 01 Jan 2030 00:00:00 GMT" parses, and its
    suffix is "2030-01-01T00:00:00Z" in the zip, csv and json names. *)
Theorem C9_object_key_layout :
  (forall ts,
     blobZIP ts = "prism.zip/" +:+ ts /\
     blobCSV ts = "prism.csv/" +:+ ts /\
     blobJSON ts = "prism.json/" +:+ ts) /\
  blobJSONLatest = "prism.json/latest" /\
  (forall w s resp t,
     httpGet w = inr resp ->
     lastModifiedTime w resp = inr t ->
     Forall (fun n => In n [blobZIP (GoTime.FormatRFC3339 t);
                            blobCSV (GoTime.FormatRFC3339 t);
                            blobJSON (GoTime.FormatRFC3339 t);
                            blobJSONLatest])
            (touched (log (fetchInternal w s))) /\
     (bucket s !! blobJSON (GoTime.FormatRFC3339 t) = None ->
      result (fetchInternal w s) = None ->
      touched (log (fetchInternal w s)) =
        [blobJSON (GoTime.FormatRFC3339 t); blobZIP (GoTime.FormatRFC3339 t);
         blobCSV (GoTime.FormatRFC3339 t); blobJSONLatest;
         blobJSON (GoTime.FormatRFC3339 t)])) /\
  (forall w h body,
     Header_Get h "Last-Modified" = "Tue, 01 Jan 2030 00:00:00 GMT" ->
     exists t,
       lastModifiedTime w (mkResponse h body) = inr t /\
       GoTime.FormatRFC3339 t = "2030-01-01T00:00:00Z" /\
       blobZIP (GoTime.FormatRFC3339 t) = "prism.zip/2030-01-01T00:00:00Z" /\
       blobCSV (GoTime.FormatRFC3339 t) = "prism.csv/2030-01-01T00:00:00Z" /\
       blobJSON (GoTime.FormatRFC3339 t) = "prism.json/2030-01-01T00:00:00Z") /\
  touched (log (fetchInternal Sample.happy Sample.emptyState)) =
    ["prism.json/2030-01-01T00:00:00Z"; "prism.zip/2030-01-01T00:00:00Z";
     "prism.csv/2030-01-01T00:00:00Z"; "prism.json/latest";
     "prism.json/2030-01-01T00:00:00Z"].
Proof.
  split; [intros ts; repeat split; reflexivity|].
  split; [reflexivity|].
  split.
  - intros w s resp t Hg Ht. exec.
    destruct (newClient w).
    { exec. cbn [touched]. split; [constructor|discriminate]. }
    rewrite Hg. exec. rewrite Ht. exec.
    all_paths; cbn [touched]; (split; [|intros; simplify_eq; try discriminate; try reflexivity]).
    all: repeat (constructor; [cbn [In]; in_list|]); try constructor.
  - split; [|vm_compute; reflexivity].
    intros w h body Hh. exists (GoTime.mkTime 2030 1 1 0 0 0).
    unfold lastModifiedTime. cbn [Header]. rewrite Hh.
    repeat split; reflexivity.
Qed.

(** ** Converter failures *)

(** The error of [mdbToSqlite] when mdb-sqlite.jar fails: the output
    is spliced with [%v] while it is still a [[]byte]. *)
Lemma mdbToSqlite_java_error (w : World) (mdbTmp tmpSqlite err : string) (c : Ctx) :
  exitErr (java w (readFile mdbTmp (st c))) = Some err ->
  fst (mdbToSqlite w mdbTmp tmpSqlite c) =
    inl ("couldn't read output from java: " +:+ err +:+ ", output: "
         +:+ fmtByteSlice (CombinedOutput (java w (readFile mdbTmp (st c))))).
Proof. destruct c as [s0 ds l]. cbn [st]. intros H. exec. rewrite H. reflexivity. Qed.

(** The error of [querySqliteToCSV] when sqlite3 fails: the standard
    error is spliced as text ([selectErr.String()]). *)
Lemma querySqliteToCSV_error (w : World) (tmpSqlite err : string) (c : Ctx) :
  openSql w = None ->
  exitErr (selectLinks w (readFile tmpSqlite (st c))) = Some err ->
  fst (querySqliteToCSV w tmpSqlite c) =
    inl ("couldn't select: " +:+ err +:+ ", stderr: "
         +:+ stderr (selectLinks w (readFile tmpSqlite (st c)))).
Proof.
  destruct c as [s0 ds l]. cbn [st]. intros Ho H. exec. rewrite Ho. exec.
  unfold readFile, openFile in *. cbn [files] in *. rewrite H. reflexivity.
Qed.

(** The error of [csvToJSON] when python3 fails: again as text. *)
Lemma csvToJSON_error (w : World) (tmpCsv err : string) (c : Ctx) :
  exitErr (csv2json w tmpCsv) = Some err ->
  fst (csvToJSON w tmpCsv c) =
    inl ("couldn't convert to json: " +:+ err +:+ ", stderr: "
         +:+ stderr (csv2json w tmpCsv)).
Proof. intros H. exec. rewrite H. reflexivity. Qed.

(** C6: the relational converter exits with "exit status 1" after
    writing "corrupt header" to its standard error.  [fetchInternal]
    returns the error of [mdbToSqlite], and only the raw archive has
    been committed; but the text of the error lists the bytes of the
    output in decimal, and "corrupt header" does not occur in it. *)
Theorem C6_java_output_not_text :
  result (fetchInternal
            (Sample.world Sample.resp [Sample.entry "prism.mdb"]
               (Sample.failCmd "exit status 1" "corrupt header") (fun _ => None))
            Sample.emptyState)
  = Some ("couldn't read output from java: exit status 1, output: "
          +:+ "[99 111 114 114 117 112 116 32 104 101 97 100 101 114]") /\
  (forall msg,
     result (fetchInternal
               (Sample.world Sample.resp [Sample.entry "prism.mdb"]
                  (Sample.failCmd "exit status 1" "corrupt header") (fun _ => None))
               Sample.emptyState) = Some msg ->
     contains "corrupt header" msg = false) /\
  written (log (fetchInternal
            (Sample.world Sample.resp [Sample.entry "prism.mdb"]
               (Sample.failCmd "exit status 1" "corrupt header") (fun _ => None))
            Sample.emptyState))
  = ["prism.zip/2030-01-01T00:00:00Z"].
Proof.
  assert (result (fetchInternal
            (Sample.world Sample.resp [Sample.entry "prism.mdb"]
               (Sample.failCmd "exit status 1" "corrupt header") (fun _ => None))
            Sample.emptyState)
          = Some ("couldn't read output from java: exit status 1, output: "
                  +:+ "[99 111 114 114 117 112 116 32 104 101 97 100 101 114]")) as E.
  { vm_compute. reflexivity. }
  split; [exact E|]. split.
  - intros msg. rewrite E. intros [= <-]. vm_compute. reflexivity.
  - vm_compute. reflexivity.
Qed.

(** ** The marker of a completed version across runs *)

Lemma hasByte_append (c : ascii) (a b : string) :
  hasByte c (a +:+ String c "" +:+ b) = true.
Proof.
  induction a as [|c' a IH]; simpl.
  - rewrite Ascii.eqb_refl. reflexivity.
  - rewrite IH. apply orb_true_r.
Qed.

(** An RFC3339 suffix contains "-", so it is never the word "latest". *)
Lemma FormatRFC3339_not_latest (t : GoTime.Time) :
  GoTime.FormatRFC3339 t <> "latest".
Proof.
  intros E. apply (f_equal (hasByte "-")) in E.
  unfold GoTime.FormatRFC3339 in E. rewrite hasByte_append in E.
  discriminate E.
Qed.

Lemma blobZIP_not_JSON (y x : string) : blobZIP y <> blobJSON x.
Proof. discriminate. Qed.

Lemma blobCSV_not_JSON (y x : string) : blobCSV y <> blobJSON x.
Proof. discriminate. Qed.

Lemma blobJSONLatest_not_JSON (x : string) :
  x <> "latest" -> blobJSONLatest <> blobJSON x.
Proof. intros Hx [= E]. auto. Qed.

(** Two reasons why a name is not the object in question. *)
Ltac other_name :=
  first [ apply blobZIP_not_JSON
        | apply blobCSV_not_JSON
        | apply blobJSONLatest_not_JSON; assumption
        | congruence ].

(** One run never touches an existing prism.json/<x> other than the
    alias: it either finds it at the dedup check and stops, or its own
    timestamped name is a different one. *)
Lemma marker_kept_by_run (w : World) (s : State) (x v : string) :
  x <> "latest" ->
  bucket s !! blobJSON x = Some v ->
  bucket (final (fetchInternal w s)) !! blobJSON x = Some v /\
  ~ In (blobJSON x) (written (log (fetchInternal w s))).
Proof.
  destruct s as [b f h]. cbn [bucket]. intros Hx Hb. exec.
  all_paths; disk; cbn [written In].
  all: repeat match goal with
              | H : bucket (mkState _ _ _) !! _ = _ |- _ => cbn [bucket] in H
              end.
  all: split; [|intros Hin; repeat destruct Hin as [Hin|Hin]; try contradiction;
                revert Hin; other_name].
  all: repeat (rewrite lookup_insert_ne by other_name); exact Hb.
Qed.

(** A run stops after committing the raw archive; the next run for
    the same version commits prism.zip/<timestamp> again. *)
Lemma C4_counterexample :
  result (fetchInternal
            (Sample.world Sample.resp [Sample.entry "prism.mdb"]
               (Sample.failCmd "exit status 1" "corrupt header") (fun _ => None))
            Sample.emptyState) <> None /\
  bucket (final (fetchInternal
            (Sample.world Sample.resp [Sample.entry "prism.mdb"]
               (Sample.failCmd "exit status 1" "corrupt header") (fun _ => None))
            Sample.emptyState)) !! "prism.zip/2030-01-01T00:00:00Z"
  = Some "PK-archive" /\
  In "prism.zip/2030-01-01T00:00:00Z"
     (written (log (fetchInternal Sample.happy
        (final (fetchInternal
            (Sample.world Sample.resp [Sample.entry "prism.mdb"]
               (Sample.failCmd "exit status 1" "corrupt header") (fun _ => None))
            Sample.emptyState))))).
Proof.
  vm_compute. split; [discriminate|]. split; [reflexivity|]. left. reflexivity.
Qed.

(** C4 (as amended): once prism.json/<timestamp> exists, which is the
    one name the dedup check reads, no later run commits that name
    again and its content stays what it is, through any sequence of
    runs; the alias prism.json/latest is the name every complete run
    overwrites.  (The same is not true of prism.zip/<timestamp> and
    prism.csv/<timestamp>: a run that finds no prism.json/<timestamp>
    commits them whether they exist or not.) *)
Theorem C4_marker_written_once (ws : list World) (s : State) (x v : string) :
  x <> "latest" ->
  bucket s !! blobJSON x = Some v ->
  Forall (fun r =>
            bucket (final r) !! blobJSON x = Some v /\
            ~ In (blobJSON x) (written (log r)))
         (runs ws s).
Proof.
  intros Hx. revert s.
  induction ws as [|w ws IH]; intros s Hb; cbn [runs].
  - constructor.
  - destruct (marker_kept_by_run w s x v Hx Hb) as [Hkept Hnot].
    constructor; [split; assumption|].
    apply IH. exact Hkept.
Qed.

Lemma C4_marker_written_once_witness :
  Forall (fun r =>
            bucket (final r) !! blobJSON (GoTime.FormatRFC3339 (GoTime.mkTime 2030 1 1 0 0 0))
            = Some "[]" /\
            ~ In (blobJSON (GoTime.FormatRFC3339 (GoTime.mkTime 2030 1 1 0 0 0)))
                 (written (log r)))
         (runs [Sample.happy; Sample.happy]
               (mkState {[ "prism.json/2030-01-01T00:00:00Z" := "[]" ]} ∅ ∅)).
Proof.
  apply (C4_marker_written_once [Sample.happy; Sample.happy]
           (mkState {[ "prism.json/2030-01-01T00:00:00Z" := "[]" ]} ∅ ∅)
           (GoTime.FormatRFC3339 (GoTime.mkTime 2030 1 1 0 0 0)) "[]").
  - apply FormatRFC3339_not_latest.
  - vm_compute. reflexivity.
Defined.

(** * Further properties of the pipeline *)

(** ** The existence check *)

(** X1: when [blob.Attrs] fails with an error other than "object does
    not exist", [fetchInternal] returns the wrapped error of
    [objectExists] and stops there: the failure is not taken for
    "absent", the body is not read, nothing is committed and no
    subprocess runs, whether or not the object exists. *)
Theorem attrs_error_stops_run (w : World) (s : State) (resp : Response)
    (t : GoTime.Time) (e : error) :
  newClient w = None ->
  httpGet w = inr resp ->
  lastModifiedTime w resp = inr t ->
  attrsErr w (blobJSON (GoTime.FormatRFC3339 t)) = Some e ->
  result (fetchInternal w s) =
    Some ("couldn't get attrs on " +:+ blobJSON (GoTime.FormatRFC3339 t) +:+ ": " +:+ e) /\
  final (fetchInternal w s) = s /\
  readsBody (log (fetchInternal w s)) = false /\
  written (log (fetchInternal w s)) = [] /\
  execs (log (fetchInternal w s)) = [].
Proof.
  intros Hc Hg Ht Ha.
  exec. rewrite Hc, Hg. exec. rewrite Ht. exec. rewrite Ha. exec.
  repeat split; reflexivity.
Qed.


Lemma attrs_error_stops_run_witness :
  result (fetchInternal
            (Scenario.withAttrsErr Sample.happy (fun _ => Some "backend unavailable"))
            Sample.emptyState)
  = Some "couldn't get attrs on prism.json/2030-01-01T00:00:00Z: backend unavailable".
Proof.
  exact (proj1 (attrs_error_stops_run
                  (Scenario.withAttrsErr Sample.happy (fun _ => Some "backend unavailable"))
                  Sample.emptyState Sample.resp (GoTime.mkTime 2030 1 1 0 0 0)
                  "backend unavailable" eq_refl eq_refl eq_refl eq_refl)).
Defined.

(** ** What a run changes in the bucket and on the disk *)

(** Names of one run are pairwise different. *)
Lemma blobJSON_not_latest (t : GoTime.Time) :
  blobJSON (GoTime.FormatRFC3339 t) <> blobJSONLatest.
Proof. intros [= E]. exact (FormatRFC3339_not_latest t E). Qed.

Ltac distinct_names :=
  first [ discriminate
        | apply blobJSON_not_latest
        | apply not_eq_sym; apply blobJSON_not_latest
        | congruence ].

Ltac unfold_bucket_hyps :=
  repeat match goal with
         | H : bucket (mkState _ _ _) !! _ = _ |- _ => cbn [bucket] in H
         end.


(** X2: a run changes no object but those it commits: every name that
    is not among the committed names of the run holds after the run
    what it held before, so a run never deletes an object and never
    touches the objects of other versions. *)
Theorem bucket_frame (w : World) (s : State) (n : string) :
  ~ In n (written (log (fetchInternal w s))) ->
  bucket (final (fetchInternal w s)) !! n = bucket s !! n.
Proof.
  destruct s as [b f h]. cbn [bucket]. exec.
  all_paths; disk; cbn [written In]; intros Hn; try reflexivity.
  all: repeat (rewrite lookup_insert_ne by (intros <-; apply Hn; tauto)).
  all: reflexivity.
Qed.


Lemma bucket_frame_witness :
  bucket (final (fetchInternal Sample.happy Scenario.older))
    !! "prism.json/2029-06-01T00:00:00Z"
  = bucket Scenario.older !! "prism.json/2029-06-01T00:00:00Z".
Proof.
  assert (~ In "prism.json/2029-06-01T00:00:00Z"
              (written (log (fetchInternal Sample.happy Scenario.older)))) as Hn.
  { vm_compute. intuition discriminate. }
  exact (bucket_frame Sample.happy Scenario.older
           "prism.json/2029-06-01T00:00:00Z" Hn).
Defined.

(** X3: the log of commits is sound: every object the run logged as
    committed is in the bucket, with the logged content, when the run
    has returned (the four names of a run are pairwise different, so
    no commit of the run overwrites another). *)
Theorem committed_in_bucket (w : World) (s : State) (n c : string) :
  In (n, c) (committed (log (fetchInternal w s))) ->
  bucket (final (fetchInternal w s)) !! n = Some c.
Proof.
  destruct s as [b f h]. exec.
  all_paths; disk; cbn [committed In]; intros Hin.
  all: repeat (destruct Hin as [[= <- <-]|Hin]); try contradiction.
  all: repeat first [ apply lookup_insert_eq
                    | rewrite lookup_insert_ne by distinct_names ].
Qed.


Lemma committed_in_bucket_witness :
  bucket (final (fetchInternal Sample.happy Scenario.older)) !! "prism.json/latest"
  = Some "[]".
Proof.
  assert (In ("prism.json/latest", "[]")
             (committed (log (fetchInternal Sample.happy Scenario.older)))) as Hin.
  { vm_compute. do 2 right. left. reflexivity. }
  exact (committed_in_bucket Sample.happy Scenario.older
           "prism.json/latest" "[]" Hin).
Defined.

(** X4: a run leaves every file on the disk that is not one of its own
    staging files as it was: the converters are only given the paths
    [tempFile] returned, and only those are removed. *)
Theorem disk_frame (w : World) (s : State) (p : string) :
  ~ In p (acquired (log (fetchInternal w s))) ->
  files (final (fetchInternal w s)) !! p = files s !! p.
Proof.
  destruct s as [b f h]. cbn [files]. exec.
  all_paths; disk; cbn [acquired In]; intros Hp; try reflexivity.
  all: repeat first [ rewrite lookup_delete_ne by (intros <-; apply Hp; tauto)
                    | rewrite lookup_insert_ne by (intros <-; apply Hp; tauto) ].
  all: reflexivity.
Qed.


Lemma disk_frame_witness :
  files (final (fetchInternal Sample.happy Scenario.older)) !! "/tmp/other"
  = files Scenario.older !! "/tmp/other".
Proof.
  assert (~ In "/tmp/other"
              (acquired (log (fetchInternal Sample.happy Scenario.older)))) as Hp.
  { vm_compute. intuition discriminate. }
  exact (disk_frame Sample.happy Scenario.older "/tmp/other" Hp).
Defined.

(** ** The marker of a complete run *)

(** X5: the timestamped JSON object is a proof of completion: if
    prism.json/<timestamp> was absent before the run and is present
    after it, the run returned nil, prism.json/latest holds the same
    content, prism.zip/<timestamp> holds the fetched body and
    prism.csv/<timestamp> exists. *)
Theorem marker_means_complete (w : World) (s : State) (resp : Response)
    (t : GoTime.Time) (j : string) :
  httpGet w = inr resp ->
  lastModifiedTime w resp = inr t ->
  bucket s !! blobJSON (GoTime.FormatRFC3339 t) = None ->
  bucket (final (fetchInternal w s)) !! blobJSON (GoTime.FormatRFC3339 t) = Some j ->
  result (fetchInternal w s) = None /\
  bucket (final (fetchInternal w s)) !! blobJSONLatest = Some j /\
  bucket (final (fetchInternal w s)) !! blobZIP (GoTime.FormatRFC3339 t)
    = Some (data (Body resp)) /\
  is_Some (bucket (final (fetchInternal w s)) !! blobCSV (GoTime.FormatRFC3339 t)).
Proof.
  destruct s as [b f h]. cbn [bucket]. intros Hg Ht Hb. exec.
  destruct (newClient w); exec; [disk; intros; congruence|].
  rewrite Hg. exec. rewrite Ht. exec.
  destruct (attrsErr w _); exec; cbn [bucket]; [intros; congruence|].
  rewrite Hb. exec.
  all_paths; disk; intros Hj.
  all: repeat (rewrite lookup_insert_ne in Hj by distinct_names).
  all: try congruence.
  rewrite lookup_insert_eq in Hj. injection Hj as <-.
  repeat split.
  - rewrite lookup_insert_ne by distinct_names. apply lookup_insert_eq.
  - repeat (rewrite lookup_insert_ne by distinct_names). apply lookup_insert_eq.
  - repeat (rewrite lookup_insert_ne by distinct_names).
    rewrite lookup_insert_eq. eexists. reflexivity.
Qed.


Lemma marker_means_complete_witness :
  bucket (final (fetchInternal Sample.happy Sample.emptyState)) !! blobJSONLatest
  = Some "[]".
Proof.
  assert (bucket (final (fetchInternal Sample.happy Sample.emptyState))
            !! blobJSON (GoTime.FormatRFC3339 (GoTime.mkTime 2030 1 1 0 0 0))
          = Some "[]") as Hj.
  { vm_compute. reflexivity. }
  exact (proj1 (proj2 (marker_means_complete Sample.happy Sample.emptyState
                         Sample.resp (GoTime.mkTime 2030 1 1 0 0 0) "[]"
                         eq_refl eq_refl eq_refl Hj))).
Defined.

(** X6: running again is a no-op: after a run that passed the dedup
    check and returned nil, a later run whose response carries the
    same timestamp (and whose existence check does not fail) returns
    nil, leaves the bucket and the disk as the first run left them,
    commits nothing, reads no body and starts no subprocess. *)
Theorem rerun_short_circuits (w1 w2 : World) (s : State) (r1 r2 : Response)
    (t : GoTime.Time) :
  httpGet w1 = inr r1 ->
  lastModifiedTime w1 r1 = inr t ->
  bucket s !! blobJSON (GoTime.FormatRFC3339 t) = None ->
  result (fetchInternal w1 s) = None ->
  newClient w2 = None ->
  httpGet w2 = inr r2 ->
  lastModifiedTime w2 r2 = inr t ->
  attrsErr w2 (blobJSON (GoTime.FormatRFC3339 t)) = None ->
  result (fetchInternal w2 (final (fetchInternal w1 s))) = None /\
  final (fetchInternal w2 (final (fetchInternal w1 s))) = final (fetchInternal w1 s) /\
  written (log (fetchInternal w2 (final (fetchInternal w1 s)))) = [] /\
  execs (log (fetchInternal w2 (final (fetchInternal w1 s)))) = [] /\
  readsBody (log (fetchInternal w2 (final (fetchInternal w1 s)))) = false.
Proof.
  intros Hg1 Ht1 Hb Hres Hc2 Hg2 Ht2 Ha2.
  assert (exists j, bucket (final (fetchInternal w1 s))
                      !! blobJSON (GoTime.FormatRFC3339 t) = Some j) as [j Hj].
  { revert Hres. destruct s as [b f h]. cbn [bucket] in Hb. exec.
    destruct (newClient w1); exec; [discriminate|].
    rewrite Hg1. exec. rewrite Ht1. exec.
    destruct (attrsErr w1 _); exec; cbn [bucket]; [discriminate|].
    rewrite Hb. exec.
    all_paths; disk; intros Hres; try discriminate.
    eexists. apply lookup_insert_eq. }
  generalize dependent (final (fetchInternal w1 s)). intros s1 Hj.
  exec. rewrite Hc2, Hg2. exec. rewrite Ht2. exec. rewrite Ha2. exec.
  rewrite Hj. exec. repeat split; reflexivity.
Qed.


Lemma rerun_short_circuits_witness :
  written (log (fetchInternal Sample.happy
                  (final (fetchInternal Sample.happy Sample.emptyState)))) = [].
Proof.
  assert (result (fetchInternal Sample.happy Sample.emptyState) = None) as Hres.
  { vm_compute. reflexivity. }
  exact (proj1 (proj2 (proj2 (rerun_short_circuits Sample.happy Sample.happy
                                Sample.emptyState Sample.resp Sample.resp
                                (GoTime.mkTime 2030 1 1 0 0 0)
                                eq_refl eq_refl eq_refl Hres
                                eq_refl eq_refl eq_refl eq_refl)))).
Defined.

(** ** The chain of converters *)

Lemma readFile_written (b : gmap string string) (f : gmap string string)
    (h : gset string) (p c : string) :
  readFile p (mkState b (<[p := c]> f) h) = c.
Proof. unfold readFile. cbn [files]. rewrite lookup_insert_eq. reflexivity. Qed.


(** X7: the published objects are the converters applied in sequence:
    when the two staging files have different paths and the run
    returns nil, prism.csv/<timestamp> is the standard output of the
    query on the database that "analyze" left from what mdb-sqlite.jar
    made of the bytes of the prism.mdb entry, and both JSON objects are
    the standard output of csv2json2.py on that CSV. *)
Theorem pipeline_composes (w : World) (s : State) (resp : Response)
    (t : GoTime.Time) (File : list ZipFile) (z : ZipFile) (r : Reader)
    (p1 p2 : string) :
  httpGet w = inr resp ->
  lastModifiedTime w resp = inr t ->
  bucket s !! blobJSON (GoTime.FormatRFC3339 t) = None ->
  zipNewReader w (data (Body resp)) = inr File ->
  findPrismMdb File = inr z ->
  Open z = inr r ->
  TempFile w "prism.mdb" = inr p1 ->
  TempFile w "prism.sqlite3" = inr p2 ->
  p1 <> p2 ->
  result (fetchInternal w s) = None ->
  committed (log (fetchInternal w s)) =
    [(blobZIP (GoTime.FormatRFC3339 t), data (Body resp));
     (blobCSV (GoTime.FormatRFC3339 t),
      stdout (selectLinks w (analyzeOut w (javaOut w (data r)))));
     (blobJSONLatest,
      stdout (csv2json w
                (stdout (selectLinks w (analyzeOut w (javaOut w (data r)))))));
     (blobJSON (GoTime.FormatRFC3339 t),
      stdout (csv2json w
                (stdout (selectLinks w (analyzeOut w (javaOut w (data r)))))))].
Proof.
  destruct s as [b f h]. cbn [bucket].
  intros Hg Ht Hb Hz Hf Ho Hp1 Hp2 Hne.
  assert (forall d s',
            readFile p1 (createFile p2 (writeFile p1 d s')) = d) as Hmdb.
  { intros d [b' f' h']. unfold readFile, createFile, writeFile. cbn [files].
    rewrite lookup_insert_ne by congruence. rewrite lookup_insert_eq. reflexivity. }
  assert (forall c s', readFile p2 (writeFile p2 c s') = c) as Hdb.
  { intros c [b' f' h']. unfold writeFile. cbn [bucket files handles].
    apply readFile_written. }
  assert (forall c s', readFile p2 (openFile "select_point_to_point_links.sql"
                                      (writeFile p2 c s')) = c) as Hq.
  { intros c [b' f' h']. unfold writeFile, openFile. cbn [bucket files handles].
    apply readFile_written. }
  exec.
  destruct (newClient w); exec; [discriminate|].
  rewrite Hg. exec. rewrite Ht. exec.
  destruct (attrsErr w _); exec; cbn [bucket]; [discriminate|].
  rewrite Hb. exec.
  destruct (readErr (Body resp)); exec; [discriminate|].
  destruct (copyErr w _); exec; [discriminate|].
  destruct (closeErr w _); exec; [discriminate|].
  rewrite Hz. exec. rewrite Hf. exec. rewrite Ho. exec. rewrite Hp1. exec.
  destruct (readErr r); exec; [discriminate|].
  rewrite Hp2. exec.
  repeat (rewrite ?Hmdb, ?Hdb, ?Hq; next_answer; exec; try discriminate).
  intros _. rewrite ?Hmdb, ?Hdb, ?Hq. reflexivity.
Qed.


Lemma pipeline_composes_witness :
  committed (log (fetchInternal Sample.happy Sample.emptyState)) =
    [("prism.zip/2030-01-01T00:00:00Z", "PK-archive");
     ("prism.csv/2030-01-01T00:00:00Z", "a,b");
     ("prism.json/latest", "[]");
     ("prism.json/2030-01-01T00:00:00Z", "[]")].
Proof.
  assert ("/tmp/prism.mdb042" <> "/tmp/prism.sqlite3042") as Hne by discriminate.
  assert (result (fetchInternal Sample.happy Sample.emptyState) = None) as Hres.
  { vm_compute. reflexivity. }
  exact (pipeline_composes Sample.happy Sample.emptyState Sample.resp
           (GoTime.mkTime 2030 1 1 0 0 0)
           [Sample.entry "readme.txt"; Sample.entry "prism.mdb"]
           (Sample.entry "prism.mdb") (mkReader "mdb-bytes" None)
           "/tmp/prism.mdb042" "/tmp/prism.sqlite3042"
           eq_refl eq_refl eq_refl eq_refl eq_refl eq_refl eq_refl eq_refl
           Hne Hres).
Defined.

(** X8: [querySqliteToCSV] opens select_point_to_point_links.sql and
    never closes it: after every run that started the query (and
    whose staging files are not that very path), the handle on the
    query file is still open when [fetchInternal] has returned. *)
Theorem query_file_left_open (w : World) (s : State) (db : string) :
  In (EvExec ["/usr/bin/sqlite3"; db]) (log (fetchInternal w s)) ->
  ~ In "select_point_to_point_links.sql" (acquired (log (fetchInternal w s))) ->
  "select_point_to_point_links.sql" ∈ handles (final (fetchInternal w s)).
Proof.
  exec. all_paths; disk; cbn [In acquired]; intros Hin Hacq.
  all: repeat (destruct Hin as [Hin|Hin]; [try discriminate Hin|]); try contradiction.
  all: rewrite !elem_of_difference, !elem_of_union, !elem_of_singleton.
  all: repeat split; auto; intros ->; apply Hacq; tauto.
Qed.


Lemma query_file_left_open_witness :
  "select_point_to_point_links.sql"
  ∈ handles (final (fetchInternal Sample.happy Sample.emptyState)).
Proof.
  assert (In (EvExec ["/usr/bin/sqlite3"; "/tmp/prism.sqlite3042"])
             (log (fetchInternal Sample.happy Sample.emptyState))) as Hin.
  { vm_compute. do 9 right. left. reflexivity. }
  assert (~ In "select_point_to_point_links.sql"
              (acquired (log (fetchInternal Sample.happy Sample.emptyState)))) as Hacq.
  { vm_compute. intuition discriminate. }
  exact (query_file_left_open Sample.happy Sample.emptyState
           "/tmp/prism.sqlite3042" Hin Hacq).
Defined.

(** ** The handler *)

Lemma nil_has_marker (w : World) (s : State) :
  result (fetchInternal w s) = None ->
  exists resp t,
    httpGet w = inr resp /\
    lastModifiedTime w resp = inr t /\
    is_Some (bucket (final (fetchInternal w s))
               !! blobJSON (GoTime.FormatRFC3339 t)).
Proof.
  destruct s as [b f h]. exec.
  all_paths; disk; intros Hres; try discriminate Hres.
  all: eexists _, _; repeat (split; [first [reflexivity | eassumption]|]).
  all: unfold_bucket_hyps.
  all: first [ eexists; eassumption | eexists; apply lookup_insert_eq ].
Qed.


(** X9: the handler answers in one of two ways.  Either status 200
    with body "OK", and then [fetchInternal] returned nil and the
    bucket holds prism.json/<timestamp> for the timestamp of the
    fetched response; or status 500 with body "/fetch failed: "
    followed by the text of the error [fetchInternal] returned. *)
Theorem fetch_reply (w : World) (s : State) :
  (status (fst (fetch w s)) = 200 /\
   reply (fst (fetch w s)) = "OK" /\
   result (snd (fetch w s)) = None /\
   exists resp t,
     httpGet w = inr resp /\
     lastModifiedTime w resp = inr t /\
     is_Some (bucket (final (snd (fetch w s)))
                !! blobJSON (GoTime.FormatRFC3339 t))) \/
  (status (fst (fetch w s)) = 500 /\
   exists err,
     result (snd (fetch w s)) = Some err /\
     reply (fst (fetch w s)) = "/fetch failed: " +:+ err).
Proof.
  unfold fetch. cbv zeta.
  destruct (result (fetchInternal w s)) as [err|] eqn:Hres; cbn [fst snd status reply].
  - right. split; [reflexivity|]. exists err. split; [exact Hres|reflexivity].
  - left. repeat (split; [first [reflexivity | exact Hres]|]).
    apply nil_has_marker. exact Hres.
Qed.

(** ** The earlier revision *)

Ltac exec_earlier :=
  cbv beta iota zeta delta
    [Earlier.fetchInternal Earlier.fetchBody
     fetchInternal fetchBody bind ret fail emit defer getState modify liftE wrapE
     objectExists writeToGCS tempFile mdbToSqlite querySqliteToCSV csvToJSON
     unwind runDeferred st deferred events result final log app
     blobZIP blobCSV blobJSON blobJSONLatest].

Ltac all_paths_earlier := repeat (next_answer; exec_earlier).


(** X10: the earlier revision never looks an object up: whatever the
    bucket holds, a run that returns nil touches exactly four names,
    all of them commits, in the order prism.zip/<timestamp>,
    prism.csv/<timestamp>, prism.json/<timestamp>, prism.json/latest. *)
Theorem earlier_order (w : World) (s : State) (resp : Response) (t : GoTime.Time) :
  httpGet w = inr resp ->
  lastModifiedTime w resp = inr t ->
  result (Earlier.fetchInternal w s) = None ->
  touched (log (Earlier.fetchInternal w s)) =
    ["prism.zip/" +:+ GoTime.FormatRFC3339 t; "prism.csv/" +:+ GoTime.FormatRFC3339 t;
     "prism.json/" +:+ GoTime.FormatRFC3339 t; "prism.json/latest"] /\
  written (log (Earlier.fetchInternal w s)) =
    touched (log (Earlier.fetchInternal w s)).
Proof.
  intros Hg Ht. exec_earlier.
  destruct (newClient w); exec_earlier; [discriminate|].
  rewrite Hg. exec_earlier. rewrite Ht. exec_earlier.
  all_paths_earlier; try discriminate.
  intros _. split; reflexivity.
Qed.


Lemma earlier_order_witness :
  written (log (Earlier.fetchInternal Sample.happy Scenario.older)) =
  touched (log (Earlier.fetchInternal Sample.happy Scenario.older)).
Proof.
  assert (result (Earlier.fetchInternal Sample.happy Scenario.older) = None) as Hres.
  { vm_compute. reflexivity. }
  exact (proj2 (earlier_order Sample.happy Scenario.older Sample.resp
                  (GoTime.mkTime 2030 1 1 0 0 0) eq_refl eq_refl Hres)).
Defined.

(** X11: the two revisions agree on complete runs: when
    prism.json/<timestamp> is absent and the present [fetchInternal]
    returns nil, the earlier revision in the same world from the same
    state returns nil too and leaves the same bucket and disk; the
    same four objects are committed with the same contents, and only
    the last two change places. *)
Theorem revisions_agree (w : World) (s : State) (resp : Response) (t : GoTime.Time) :
  httpGet w = inr resp ->
  lastModifiedTime w resp = inr t ->
  bucket s !! blobJSON (GoTime.FormatRFC3339 t) = None ->
  result (fetchInternal w s) = None ->
  result (Earlier.fetchInternal w s) = None /\
  final (Earlier.fetchInternal w s) = final (fetchInternal w s) /\
  exists zip csv json latest,
    committed (log (fetchInternal w s)) = [zip; csv; latest; json] /\
    committed (log (Earlier.fetchInternal w s)) = [zip; csv; json; latest].
Proof.
  destruct s as [b f h]. cbn [bucket]. intros Hg Ht Hb.
  pose proof (blobJSON_not_latest t) as Hne. unfold blobJSON, blobJSONLatest in Hne, Hb.
  exec_earlier.
  destruct (newClient w); exec_earlier; [discriminate|].
  rewrite Hg. exec_earlier. rewrite Ht. exec_earlier.
  destruct (attrsErr w _); exec_earlier; cbn [bucket]; [discriminate|].
  rewrite Hb. exec_earlier.
  all_paths_earlier; try discriminate.
  intros _. split; [reflexivity|]. split.
  - disk. f_equal. apply insert_insert_ne. congruence.
  - eexists _, _, _, _. split; reflexivity.
Qed.

Lemma revisions_agree_witness :
  final (Earlier.fetchInternal Sample.happy Sample.emptyState)
  = final (fetchInternal Sample.happy Sample.emptyState).
Proof.
  assert (result (fetchInternal Sample.happy Sample.emptyState) = None) as Hres.
  { vm_compute. reflexivity. }
  exact (proj1 (proj2 (revisions_agree Sample.happy Sample.emptyState Sample.resp
                         (GoTime.mkTime 2030 1 1 0 0 0)
                         eq_refl eq_refl eq_refl Hres))).
Defined.

(** ** One name per timestamp *)

Lemma readsBack_2 (x : nat) : x < 100 -> readsBack 2 x = true.
Proof.
  intros Hx.
  assert (forallb (readsBack 2) (seq 0 100) = true) as Hall by (vm_compute; reflexivity).
  rewrite forallb_forall in Hall. apply Hall. apply in_seq. lia.
Qed.

Lemma readsBack_4 (x : nat) : x < 100 * 100 -> readsBack 4 x = true.
Proof.
  intros Hx.
  assert (forallb (readsBack 4) (seq 0 (100 * 100)) = true) as Hall
    by (vm_compute; reflexivity).
  rewrite forallb_forall in Hall. apply Hall. apply in_seq. lia.
Qed.

Lemma appendInt_2 (x : nat) :
  x < 100 ->
  exists a b,
    GoTime.appendInt x 2 = String a (String b "") /\
    digitsValue 0 (String a (String b "")) = Some x.
Proof.
  intros Hx. pose proof (readsBack_2 x Hx) as H. unfold readsBack in H.
  apply andb_true_iff in H as [Hlen Hval]. apply Nat.eqb_eq in Hlen.
  destruct (GoTime.appendInt x 2) as [|a [|b [|c rest]]]; try discriminate Hlen.
  exists a, b. split; [reflexivity|].
  destruct (digitsValue 0 (String a (String b ""))); [|discriminate].
  apply Nat.eqb_eq in Hval. congruence.
Qed.

Lemma appendInt_4 (x : nat) :
  x < 100 * 100 ->
  exists a b c d,
    GoTime.appendInt x 4 = String a (String b (String c (String d ""))) /\
    digitsValue 0 (String a (String b (String c (String d "")))) = Some x.
Proof.
  intros Hx. pose proof (readsBack_4 x Hx) as H. unfold readsBack in H.
  apply andb_true_iff in H as [Hlen Hval]. apply Nat.eqb_eq in Hlen.
  destruct (GoTime.appendInt x 4) as [|a [|b [|c [|d [|e rest]]]]];
    try discriminate Hlen.
  exists a, b, c, d. split; [reflexivity|].
  destruct (digitsValue 0 _); [|discriminate].
  apply Nat.eqb_eq in Hval. congruence.
Qed.

Lemma readRFC3339_Format (t : GoTime.Time) :
  inRange t -> readRFC3339 (GoTime.FormatRFC3339 t) = Some t.
Proof.
  destruct t as [y mo d h mi sec].
  unfold inRange. cbn [GoTime.year GoTime.month GoTime.day GoTime.hour
                        GoTime.minute GoTime.second].
  intros (Hy & Hmo & Hd & Hh & Hmi & Hs).
  destruct (appendInt_4 y Hy) as (y1 & y2 & y3 & y4 & Ey & Vy).
  destruct (appendInt_2 mo ltac:(lia)) as (m1 & m2 & Em & Vm).
  destruct (appendInt_2 d ltac:(lia)) as (d1 & d2 & Ed & Vd).
  destruct (appendInt_2 h ltac:(lia)) as (h1 & h2 & Eh & Vh).
  destruct (appendInt_2 mi ltac:(lia)) as (n1 & n2 & En & Vn).
  destruct (appendInt_2 sec ltac:(lia)) as (s1 & s2 & Es & Vs).
  unfold GoTime.FormatRFC3339, readRFC3339.
  cbn [GoTime.year GoTime.month GoTime.day GoTime.hour GoTime.minute GoTime.second].
  rewrite Ey, Em, Ed, Eh, En, Es.
  cbv beta iota delta [String.append substring].
  rewrite Vy, Vm, Vd, Vh, Vn, Vs. reflexivity.
Qed.

Lemma digitVal_bound (c : ascii) : GoTime.isDigit c = true -> GoTime.digitVal c <= 9.
Proof.
  unfold GoTime.isDigit, GoTime.digitVal. intros H.
  apply andb_true_iff in H as [_ H]. apply Nat.leb_le in H. lia.
Qed.

Lemma longYear_bound (v rest : string) (y : nat) :
  GoTime.longYear v = Some (y, rest) -> y < 100 * 100.
Proof.
  unfold GoTime.longYear.
  destruct v as [|a [|b [|c [|d v]]]]; try discriminate.
  destruct (GoTime.isDigit a) eqn:Ha; [|discriminate].
  destruct (GoTime.isDigit b) eqn:Hb; [|discriminate].
  destruct (GoTime.isDigit c) eqn:Hc; [|discriminate].
  destruct (GoTime.isDigit d) eqn:Hd; [|discriminate].
  cbn [andb]. intros [= <- _].
  apply digitVal_bound in Ha, Hb, Hc, Hd. lia.
Qed.

Lemma lookupFrom_index (tab : list string) (i n : nat) (v rest : string) :
  GoTime.lookupFrom i tab v = Some (n, rest) -> i <= n < i + length tab.
Proof.
  revert i. induction tab as [|x tab IH]; intros i; cbn [GoTime.lookupFrom length].
  - discriminate.
  - destruct (GoTime.matchPrefix x v).
    + intros [= <- _]. lia.
    + intros H. apply IH in H. lia.
Qed.

Lemma daysIn_bound (m y : nat) : GoTime.daysIn m y <= 31.
Proof.
  unfold GoTime.daysIn.
  do 12 (destruct m as [|m]; [try destruct (GoTime.isLeap y); lia|]). lia.
Qed.

Lemma guard_true (b : bool) (u : unit) : GoTime.guard b = Some u -> b = true.
Proof. destruct b; [reflexivity|discriminate]. Qed.

Ltac parse_step :=
  match goal with
  | |- context [match ?x with _ => _ end] =>
      lazymatch x with
      | context [match _ with _ => _ end] => fail
      | _ => destruct x eqn:?; cbv beta iota; try (intros; discriminate)
      end
  end.

Lemma ParseHTTP_inRange (v : string) (t : GoTime.Time) :
  GoTime.ParseHTTP v = Some t -> inRange t.
Proof.
  unfold GoTime.ParseHTTP. cbv beta iota delta [GoTime.obind].
  repeat parse_step.
  intros [= <-]. unfold inRange.
  cbn [GoTime.year GoTime.month GoTime.day GoTime.hour GoTime.minute GoTime.second].
  repeat match goal with
         | H : GoTime.guard _ = Some _ |- _ => apply guard_true in H
         | H : GoTime.longYear _ = Some _ |- _ => apply longYear_bound in H
         | H : GoTime.lookupFrom 0 GoTime.shortMonthNames _ = Some _ |- _ =>
             apply lookupFrom_index in H; cbn [length GoTime.shortMonthNames] in H
         | H : (_ && _)%bool = true |- _ => apply andb_true_iff in H as [? ?]
         | H : (_ <? _) = true |- _ => apply Nat.ltb_lt in H
         | H : (_ <=? _) = true |- _ => apply Nat.leb_le in H
         end.
  match goal with
  | H : _ <= GoTime.daysIn ?m ?y |- _ => pose proof (daysIn_bound m y)
  end.
  lia.
Qed.



